(** * The library front end: API service layer and sign-up confirmation form

    A shallow embedding of [src/services/api.ts] and of the [ConfirmSignup]
    component, with the properties the specification states about them.

    JavaScript values are an inductive type, objects are finite maps from
    property names to values, numbers are IEEE binary64 floats.  Promises
    are modelled by their outcome (fulfilled or rejected); the requests an
    operation sends are collected in a log next to that outcome. *)

From Stdlib Require Import ZArith Ascii String PrimFloat.
From Stdlib Require Import DecimalString DecimalPos DecimalZ.
From stdpp Require Import gmap strings list.

#[local] Set Warnings "-register-all,-inexact-float".
#[local] Open Scope string_scope.
#[local] Open Scope Z_scope.

(** ** JavaScript values *)

Inductive jsval : Type :=
| VUndefined
| VNull
| VBool (b : bool)
| VNumber (x : float)
| VString (s : string)
| VArray (items : list jsval)
| VObject (props : gmap string jsval).

(** [typeof v] *)
Definition typeof (v : jsval) : string :=
  match v with
  | VUndefined => "undefined"
  | VNull | VArray _ | VObject _ => "object"
  | VBool _ => "boolean"
  | VNumber _ => "number"
  | VString _ => "string"
  end.

(** Truthiness, as used by [data && ...]. *)
Definition truthy (v : jsval) : bool :=
  match v with
  | VUndefined | VNull => false
  | VBool b => b
  | VNumber x => negb (PrimFloat.eqb x 0 || PrimFloat.is_nan x)
  | VString s => negb (String.eqb s "")
  | VArray _ | VObject _ => true
  end.

(** [Array.isArray(v)] *)
Definition Array_isArray (v : jsval) : bool :=
  match v with VArray _ => true | _ => false end.

(** ['k' in v], for the property names this module asks about ([body],
    [Items], [books], [readingLists]): none of them is an array index,
    [length], or a name inherited from [Object.prototype], so an array has
    none of them and an object has exactly its own ones. *)
Definition js_in (k : string) (v : jsval) : bool :=
  match v with
  | VObject props => bool_decide (is_Some (props !! k))
  | _ => false
  end.

(** [v.k]: the property's value, [undefined] when there is none. *)
Definition js_get (k : string) (v : jsval) : jsval :=
  match v with
  | VObject props => default VUndefined (props !! k)
  | _ => VUndefined
  end.

(** [data && typeof data === 'object' && 'k' in data] *)
Definition object_with (k : string) (data : jsval) : bool :=
  truthy data && String.eqb (typeof data) "object" && js_in k data.

(** [n.toString()] for an integral number below 1e21 in magnitude (every
    [Date.now()] is one): its decimal digits, with a sign when negative. *)
Definition Number_toString (n : Z) : string :=
  NilZero.string_of_int (Z.to_int n).

(** ** Outcomes of promises *)

Inductive exn : Type :=
| Error (message : string)
| SyntaxError (message : string)
| TypeError (message : string).

Inductive outcome (A : Type) : Type :=
| Return (a : A)
| Throw (e : exn).
Arguments Return {A} a.
Arguments Throw {A} e.

#[export] Instance outcome_ret : MRet outcome := @Return.
#[export] Instance outcome_bind : MBind outcome := fun A B f m =>
  match m with
  | Return a => f a
  | Throw e => Throw e
  end.

(** ** HTTP *)

Record Request : Type := {
  url : string;
  method : string;
  headers : list (string * string);
  body : option string;
}.

(** A response: its status line and what [response.json()] settles to. *)
Record Response : Type := {
  status : Z;
  json : outcome jsval;
}.

(** [response.ok]: the status is in the range 200-299. *)
Definition ok (response : Response) : bool :=
  (200 <=? status response) && (status response <=? 299).

(** What the module takes from its surroundings: the configured base URL,
    the network behind [fetch], the JSON built-ins and the date formatter. *)
Class Platform : Type := {
  API_BASE_URL : string;
  respond : Request -> outcome Response;
  JSON_parse : string -> outcome jsval;
  JSON_stringify : jsval -> string;
  toISOString : Z -> string;
}.

(** An API computation: the requests it has sent, and how it settles. *)
Definition Api (A : Type) : Type := list Request * outcome A.

#[export] Instance Api_ret : MRet Api := fun A a => ([], Return a).
#[export] Instance Api_bind : MBind Api := fun A B f m =>
  match m with
  | (log, Return a) => let '(log', r) := f a in ((log ++ log')%list, r)
  | (log, Throw e) => (log, Throw e)
  end.

Definition throw {A : Type} (e : exn) : Api A := ([], Throw e).
Definition lift {A : Type} (m : outcome A) : Api A := ([], m).
Definition sent {A : Type} (m : Api A) : list Request := fst m.
Definition settled {A : Type} (m : Api A) : outcome A := snd m.

Section ApiService.
Context `{Platform}.

(** [fetch(url)] and [fetch(url, init)] *)
Definition fetch (request : Request) : Api Response :=
  ([request], respond request).

Definition GET (to : string) : Request :=
  {| url := to; method := "GET"; headers := []; body := None |}.

Definition with_json (verb to : string) (payload : jsval) : Request :=
  {| url := to; method := verb;
     headers := [("Content-Type", "application/json")];
     body := Some (JSON_stringify payload) |}.

Definition CURRENT_USER_ID : string := "1".

Definition parseApiJson (response : Response) : outcome jsval :=
  data ← json response;
  match data with
  | VString text => JSON_parse text
  | _ =>
    if object_with "body" data then
      match js_get "body" data with
      | VString text => JSON_parse text
      | body => Return body
      end
    else Return data
  end.

(** *** Books *)

Definition getBooks_request : Request := GET (API_BASE_URL +:+ "/books").

Definition getBooks : Api jsval :=
  response ← fetch getBooks_request;
  if negb (ok response) then throw (Error "Failed to fetch books") else
  data ← lift (parseApiJson response);
  if Array_isArray data then mret data
  else if object_with "Items" data then mret (js_get "Items" data)
  else if object_with "books" data then mret (js_get "books" data)
  else mret (VArray []).

Definition getBook_request (id : string) : Request :=
  GET (API_BASE_URL +:+ "/books/" +:+ id).

Definition getBook (id : string) : Api jsval :=
  response ← fetch (getBook_request id);
  if status response =? 404 then mret VNull else
  if negb (ok response) then throw (Error "Failed to fetch book") else
  lift (parseApiJson response).

(** *** Reading lists *)

Definition getReadingLists_request : Request :=
  GET (API_BASE_URL +:+ "/reading-lists?userId=" +:+ CURRENT_USER_ID).

Definition getReadingLists : Api jsval :=
  response ← fetch getReadingLists_request;
  if negb (ok response) then throw (Error "Failed to fetch reading lists") else
  data ← lift (parseApiJson response);
  if Array_isArray data then mret data
  else if object_with "Items" data then mret (js_get "Items" data)
  else if object_with "readingLists" data then mret (js_get "readingLists" data)
  else mret (VArray []).

(** [{ ...list, userId: CURRENT_USER_ID }]: the fields of [list], with
    [userId] set.  Objects are finite maps here, so the order of the keys
    is not represented: a [userId] key of the caller's keeps its place
    under the spread, and the text [JSON.stringify] makes of the payload
    follows that order. *)
Definition with_current_user (list : gmap string jsval) : gmap string jsval :=
  <["userId" := VString CURRENT_USER_ID]> list.

Definition createReadingList_request (list : gmap string jsval) : Request :=
  with_json "POST" (API_BASE_URL +:+ "/reading-lists")
    (VObject (with_current_user list)).

Definition createReadingList (list : gmap string jsval) : Api jsval :=
  response ← fetch (createReadingList_request list);
  if negb (ok response) then throw (Error "Failed to create reading list") else
  lift (parseApiJson response).

Definition updateReadingList_request (id : string) (list : gmap string jsval)
  : Request :=
  with_json "PUT" (API_BASE_URL +:+ "/reading-lists/" +:+ id)
    (VObject (with_current_user list)).

Definition updateReadingList (id : string) (list : gmap string jsval)
  : Api jsval :=
  response ← fetch (updateReadingList_request id list);
  if negb (ok response) then throw (Error "Failed to update reading list") else
  lift (parseApiJson response).

Definition deleteReadingList_request (id : string) : Request :=
  with_json "DELETE" (API_BASE_URL +:+ "/reading-lists/" +:+ id)
    (VObject {["userId" := VString CURRENT_USER_ID]}).

(** Promise<void>: fulfils with [undefined]. *)
Definition deleteReadingList (id : string) : Api jsval :=
  response ← fetch (deleteReadingList_request id);
  if negb (ok response) && negb (status response =? 204)
  then throw (Error "Failed to delete reading list")
  else mret VUndefined.

(** The operations that go over HTTP, and what each one sends. *)
Inductive operation : Type :=
| GetBooks
| GetBook (id : string)
| GetReadingLists
| CreateReadingList (list : gmap string jsval)
| UpdateReadingList (id : string) (list : gmap string jsval)
| DeleteReadingList (id : string).

Definition perform (op : operation) : Api jsval :=
  match op with
  | GetBooks => getBooks
  | GetBook id => getBook id
  | GetReadingLists => getReadingLists
  | CreateReadingList list => createReadingList list
  | UpdateReadingList id list => updateReadingList id list
  | DeleteReadingList id => deleteReadingList id
  end.

Definition request_of (op : operation) : Request :=
  match op with
  | GetBooks => getBooks_request
  | GetBook id => getBook_request id
  | GetReadingLists => getReadingLists_request
  | CreateReadingList list => createReadingList_request list
  | UpdateReadingList id list => updateReadingList_request id list
  | DeleteReadingList id => deleteReadingList_request id
  end.

End ApiService.

(** ** Mocked operations

    Each one is [new Promise(resolve => setTimeout(() => resolve(...), ms))]:
    a delay and the callback that computes the value the promise fulfils
    with.  The callback may read the system clock; [clock k] is what the
    clock shows at the [k]-th reading the callback makes, in milliseconds
    since the epoch. *)

Definition Clock : Type := nat -> Z.

Record Delayed (A : Type) : Type := {
  delay : Z;
  resolve : Clock -> A;
}.
Arguments delay {A} _.
Arguments resolve {A} _ _.

(** An object literal [{ k1: v1, ..., kn: vn }] with distinct names. *)
Definition object (fields : list (string * jsval)) : jsval :=
  VObject (list_to_map fields).

Section Mocks.
Context `{Platform}.

Definition createBook (book : gmap string jsval) : Delayed jsval :=
  {| delay := 500;
     resolve clock :=
       let newBook := <["id" := VString (Number_toString (clock 0%nat))]> book in
       VObject newBook |}.


Definition deleteBook : Delayed jsval :=
  {| delay := 300; resolve clock := VUndefined |}.

Definition getRecommendations : Delayed jsval :=
  {| delay := 1000;
     resolve clock :=
       let mockRecommendations := VArray [
         object [
           ("id", VString "1");
           ("bookId", VString "1");
           ("reason", VString
              "Based on your interest in philosophical fiction, this book explores themes of choice and regret.");
           ("confidence", VNumber 0.92)];
         object [
           ("id", VString "2");
           ("bookId", VString "2");
           ("reason", VString
              "If you enjoy science-based thrillers, this space adventure combines humor with hard science.");
           ("confidence", VNumber 0.88)]] in
       mockRecommendations |}.

Definition getReviews (bookId : string) : Delayed jsval :=
  {| delay := 500;
     resolve clock :=
       let mockReviews := VArray [
         object [
           ("id", VString "1");
           ("bookId", VString bookId);
           ("userId", VString "1");
           ("rating", VNumber 5);
           ("comment", VString "Absolutely loved this book! A must-read.");
           ("createdAt", VString "2024-11-01T10:00:00Z")]] in
       mockReviews |}.

Definition createReview (review : gmap string jsval) : Delayed jsval :=
  {| delay := 500;
     resolve clock :=
       let newReview :=
         <["createdAt" := VString (toISOString (clock 1%nat))]>
           (<["id" := VString (Number_toString (clock 0%nat))]> review) in
       VObject newReview |}.

End Mocks.

(** The element of a one-element array, such as the one review that
    [getReviews] makes up. *)
Definition only_item (v : jsval) : jsval :=
  match v with
  | VArray [item] => item
  | _ => VUndefined
  end.

(** ** The sign-up confirmation form *)

Module ConfirmSignup.

(** The validators imported from [@/utils/validation]. *)
Class Validation : Type := {
  validateRequired : string -> bool;
  validateEmail : string -> bool;
}.

(** The identity provider: how each of its two operations settles. *)
Class Identity : Type := {
  confirmSignUp : string -> string -> outcome unit;
  resendSignUpCode : string -> outcome unit;
}.

(** [{ email?: string; code?: string }] *)
Record Errors : Type := {
  email_error : option string;
  code_error : option string;
}.

Definition no_errors : Errors :=
  {| email_error := None; code_error := None |}.

(** [Object.keys(errors).length] *)
Definition Object_keys_length (errors : Errors) : Z :=
  (if email_error errors is Some _ then 1 else 0) +
  (if code_error errors is Some _ then 1 else 0).

(** The component's state hooks. *)
Record State : Type := {
  email : string;
  code : string;
  errors : Errors;
  isLoading : bool;
  isResending : bool;
}.

(** What a handler does, in order: state updates and calls out. *)
Inductive event : Type :=
| PreventDefault
| SetErrors (errors : Errors)
| SetIsLoading (b : bool)
| SetIsResending (b : bool)
| CallConfirmSignUp (username confirmationCode : string)
| CallResendSignUpCode (username : string)
| ShowSuccess (message : string)
| Navigate (to : string)
| HandleApiError (error : exn).

Definition apply (s : State) (e : event) : State :=
  match e with
  | SetErrors errs =>
    {| email := email s; code := code s; errors := errs;
       isLoading := isLoading s; isResending := isResending s |}
  | SetIsLoading b =>
    {| email := email s; code := code s; errors := errors s;
       isLoading := b; isResending := isResending s |}
  | SetIsResending b =>
    {| email := email s; code := code s; errors := errors s;
       isLoading := isLoading s; isResending := b |}
  | _ => s
  end.

(** The state once every update a handler made has taken effect. *)
Definition run (s : State) (trace : list event) : State :=
  fold_left apply trace s.

Section Component.
Context `{Validation} `{Identity}.

(** The handlers close over the state of the render they belong to. *)
Variable s : State.

Definition validate : list event * bool :=
  let newErrors := no_errors in
  let newErrors :=
    if negb (validateRequired (email s)) then
      {| email_error := Some "Email is required";
         code_error := code_error newErrors |}
    else if negb (validateEmail (email s)) then
      {| email_error := Some "Invalid email format";
         code_error := code_error newErrors |}
    else newErrors in
  let newErrors :=
    if negb (validateRequired (code s)) then
      {| email_error := email_error newErrors;
         code_error := Some "Verification code is required" |}
    else newErrors in
  ([SetErrors newErrors], Object_keys_length newErrors =? 0).

Definition handleConfirm : list event :=
  let '(updates, valid) := validate in
  PreventDefault :: updates ++
  if negb valid then [] else
  [SetIsLoading true; CallConfirmSignUp (email s) (code s)] ++
  match confirmSignUp (email s) (code s) with
  | Return _ =>
    [ShowSuccess "Account verified. You can sign in now."; Navigate "/login"]
  | Throw error => [HandleApiError error]
  end ++
  [SetIsLoading false].

Definition handleResend : list event :=
  if negb (validateRequired (email s)) then
    [SetErrors {| email_error := Some "Email is required"; code_error := None |}]
  else if negb (validateEmail (email s)) then
    [SetErrors {| email_error := Some "Invalid email format"; code_error := None |}]
  else
  [SetIsResending true; CallResendSignUpCode (email s)] ++
  match resendSignUpCode (email s) with
  | Return _ => [ShowSuccess "Verification code resent. Check your email."]
  | Throw error => [HandleApiError error]
  end ++
  [SetIsResending false].

End Component.

End ConfirmSignup.

(** ** Concrete surroundings, for running the definitions *)

(** A platform whose network answers every request with [response].  The
    built-ins are placeholders: nothing the runs below establish depends
    on what they answer. *)
Definition answering (response : Response) : Platform :=
  {| API_BASE_URL := "https://api.example.test/dev";
     respond _ := Return response;
     JSON_parse _ := Throw (SyntaxError "Unexpected token");
     JSON_stringify _ := "null";
     toISOString _ := "1970-01-01T00:00:00.000Z" |}.

(** A clock that shows [t] at the first reading and a millisecond more at
    each later one. *)
Definition ticking (t : Z) : Clock := fun k => t + Z.of_nat k.

(** Modelled from the spec: [validateRequired] and [validateEmail] come from
    [@/utils/validation], which is not among the sources.  The spec has the
    form reject an empty field and a malformed email; here a field is
    present when it is not the empty string, and an email is well formed
    when it has an [@] in it. *)
Definition plain_validation : ConfirmSignup.Validation :=
  {| ConfirmSignup.validateRequired v := negb (String.eqb v "");
     ConfirmSignup.validateEmail v :=
       existsb (Ascii.eqb "@"%char) (list_ascii_of_string v) |}.

(** An identity provider that accepts every call. *)
Definition accepting : ConfirmSignup.Identity :=
  {| ConfirmSignup.confirmSignUp _ _ := Return tt;
     ConfirmSignup.resendSignUpCode _ := Return tt |}.

(** ** What the claims leave out: messages, surroundings, the page, mock data *)

(** The message of the [Error] each operation throws on a failed response. *)
Definition failure_message (op : operation) : string :=
  match op with
  | GetBooks => "Failed to fetch books"
  | GetBook _ => "Failed to fetch book"
  | GetReadingLists => "Failed to fetch reading lists"
  | CreateReadingList _ => "Failed to create reading list"
  | UpdateReadingList _ _ => "Failed to update reading list"
  | DeleteReadingList _ => "Failed to delete reading list"
  end.

(** A [JSON.parse] that knows one text and rejects every other. *)
Definition knowing (text : string) (value : jsval) : string -> outcome jsval :=
  fun input =>
    if String.eqb input text then Return value
    else Throw (SyntaxError "Unexpected token").

(** A platform like [answering response], with [parse] for [JSON.parse]. *)
Definition parsing (parse : string -> outcome jsval) (response : Response)
  : Platform :=
  {| API_BASE_URL := "https://api.example.test/dev";
     respond _ := Return response;
     JSON_parse := parse;
     JSON_stringify _ := "null";
     toISOString _ := "1970-01-01T00:00:00.000Z" |}.

(** A platform whose network is down: every [fetch] rejects with [e]. *)
Definition unreachable (e : exn) : Platform :=
  {| API_BASE_URL := "https://api.example.test/dev";
     respond _ := Throw e;
     JSON_parse _ := Throw (SyntaxError "Unexpected token");
     JSON_stringify _ := "null";
     toISOString _ := "1970-01-01T00:00:00.000Z" |}.

(** An identity provider that turns every call down with [e]. *)
Definition refusing (e : exn) : ConfirmSignup.Identity :=
  {| ConfirmSignup.confirmSignUp _ _ := Throw e;
     ConfirmSignup.resendSignUpCode _ := Throw e |}.

(** *** The page around the handlers *)

(** The state of a freshly mounted form.  [state] is [location.state]:
    absent, or an object whose [email] may be absent;
    the email starts as [state?.email || '']. *)
Definition mount (state : option (option string)) : ConfirmSignup.State :=
  {| ConfirmSignup.email :=
       match state with
       | Some (Some address) => if String.eqb address "" then "" else address
       | _ => ""
       end;
     ConfirmSignup.code := "";
     ConfirmSignup.errors := ConfirmSignup.no_errors;
     ConfirmSignup.isLoading := false;
     ConfirmSignup.isResending := false |}.

(** [onChange] of the two inputs: [setEmail(e.target.value)] and
    [setCode(e.target.value)]. *)
Definition onEmailChange (value : string) (s : ConfirmSignup.State)
  : ConfirmSignup.State :=
  {| ConfirmSignup.email := value;
     ConfirmSignup.code := ConfirmSignup.code s;
     ConfirmSignup.errors := ConfirmSignup.errors s;
     ConfirmSignup.isLoading := ConfirmSignup.isLoading s;
     ConfirmSignup.isResending := ConfirmSignup.isResending s |}.

Definition onCodeChange (value : string) (s : ConfirmSignup.State)
  : ConfirmSignup.State :=
  {| ConfirmSignup.email := ConfirmSignup.email s;
     ConfirmSignup.code := value;
     ConfirmSignup.errors := ConfirmSignup.errors s;
     ConfirmSignup.isLoading := ConfirmSignup.isLoading s;
     ConfirmSignup.isResending := ConfirmSignup.isResending s |}.

(** What the rendered form shows of the state: the two inputs with their
    errors, the submit button and the resend button. *)
Record View : Type := {
  email_value : string;
  email_shown_error : option string;
  code_value : string;
  code_shown_error : option string;
  submit_disabled : bool;
  submit_label : string;
  resend_disabled : bool;
  resend_label : string;
}.

Definition render (s : ConfirmSignup.State) : View :=
  {| email_value := ConfirmSignup.email s;
     email_shown_error := ConfirmSignup.email_error (ConfirmSignup.errors s);
     code_value := ConfirmSignup.code s;
     code_shown_error := ConfirmSignup.code_error (ConfirmSignup.errors s);
     submit_disabled := ConfirmSignup.isLoading s;
     submit_label :=
       if ConfirmSignup.isLoading s then "Verifying..." else "Confirm Sign Up";
     resend_disabled := ConfirmSignup.isResending s;
     resend_label :=
       if ConfirmSignup.isResending s then "Resending code..."
       else "Resend verification code" |}.

(** *** Mock data for development *)

Definition mockBooks : list jsval := [
  object [
    ("id", VString "1");
    ("title", VString "The Midnight Library");
    ("author", VString "Matt Haig");
    ("genre", VString "Fiction");
    ("description", VString
       "Between life and death there is a library, and within that library, the shelves go on forever. Every book provides a chance to try another life you could have lived.");
    ("coverImage", VString "/book-covers/midnight-library.jpg");
    ("rating", VNumber 4.5);
    ("publishedYear", VNumber 2020);
    ("isbn", VString "978-0525559474")];
  object [
    ("id", VString "2");
    ("title", VString "Project Hail Mary");
    ("author", VString "Andy Weir");
    ("genre", VString "Science Fiction");
    ("description", VString
       "A lone astronaut must save the earth from disaster in this incredible new science-based thriller from the author of The Martian.");
    ("coverImage", VString "/book-covers/project-hail-mary.jpg");
    ("rating", VNumber 4.8);
    ("publishedYear", VNumber 2021);
    ("isbn", VString "978-0593135204")];
  object [
    ("id", VString "3");
    ("title", VString "The Silent Patient");
    ("author", VString "Alex Michaelides");
    ("genre", VString "Mystery");
    ("description", VString
       "Alicia Berenson's life is seemingly perfect. A famous painter married to an in-demand fashion photographer, she lives in a grand house. One evening her husband returns home late, and Alicia shoots him five times in the face, and then never speaks another word.");
    ("coverImage", VString "/book-covers/silent-patient.jpg");
    ("rating", VNumber 4.3);
    ("publishedYear", VNumber 2019);
    ("isbn", VString "978-1250301697")];
  object [
    ("id", VString "4");
    ("title", VString "People We Meet on Vacation");
    ("author", VString "Emily Henry");
    ("genre", VString "Romance");
    ("description", VString
       "Two best friends. Ten summer trips. One last chance to fall in love.");
    ("coverImage", VString "/book-covers/people-we-meet.jpg");
    ("rating", VNumber 4.2);
    ("publishedYear", VNumber 2021);
    ("isbn", VString "978-1984806758")];
  object [
    ("id", VString "5");
    ("title", VString "Atomic Habits");
    ("author", VString "James Clear");
    ("genre", VString "Non-Fiction");
    ("description", VString
       "An Easy & Proven Way to Build Good Habits & Break Bad Ones. Tiny changes, remarkable results.");
    ("coverImage", VString "/book-covers/atomic-habits.jpg");
    ("rating", VNumber 4.7);
    ("publishedYear", VNumber 2018);
    ("isbn", VString "978-0735211292")];
  object [
    ("id", VString "6");
    ("title", VString "The Seven Husbands of Evelyn Hugo");
    ("author", VString "Taylor Jenkins Reid");
    ("genre", VString "Fiction");
    ("description", VString
       "Aging and reclusive Hollywood movie icon Evelyn Hugo is finally ready to tell the truth about her glamorous and scandalous life.");
    ("coverImage", VString "/book-covers/evelyn-hugo.jpg");
    ("rating", VNumber 4.6);
    ("publishedYear", VNumber 2017);
    ("isbn", VString "978-1501161933")];
  object [
    ("id", VString "7");
    ("title", VString "Dune");
    ("author", VString "Frank Herbert");
    ("genre", VString "Science Fiction");
    ("description", VString
       "Set on the desert planet Arrakis, Dune is the story of the boy Paul Atreides, heir to a noble family tasked with ruling an inhospitable world.");
    ("coverImage", VString "/book-covers/dune.jpg");
    ("rating", VNumber 4.4);
    ("publishedYear", VNumber 1965);
    ("isbn", VString "978-0441172719")];
  object [
    ("id", VString "8");
    ("title", VString "The Thursday Murder Club");
    ("author", VString "Richard Osman");
    ("genre", VString "Mystery");
    ("description", VString
       "Four unlikely friends meet weekly to investigate unsolved killings. But when a local developer is found dead, these unorthodox detectives find themselves in the middle of their first live case.");
    ("coverImage", VString "/book-covers/thursday-murder-club.jpg");
    ("rating", VNumber 4.1);
    ("publishedYear", VNumber 2020);
    ("isbn", VString "978-1984880987")];
  object [
    ("id", VString "9");
    ("title", VString "Educated");
    ("author", VString "Tara Westover");
    ("genre", VString "Non-Fiction");
    ("description", VString
       "A memoir about a young girl who, kept out of school, leaves her survivalist family and goes on to earn a PhD from Cambridge University.");
    ("coverImage", VString "/book-covers/educated.jpg");
    ("rating", VNumber 4.5);
    ("publishedYear", VNumber 2018);
    ("isbn", VString "978-0399590504")];
  object [
    ("id", VString "10");
    ("title", VString "The Song of Achilles");
    ("author", VString "Madeline Miller");
    ("genre", VString "Fiction");
    ("description", VString
       "A tale of gods, kings, immortal fame and the human heart, The Song of Achilles is a dazzling literary feat that brilliantly reimagines Homer's enduring masterwork, The Iliad.");
    ("coverImage", VString "/book-covers/song-of-achilles.jpg");
    ("rating", VNumber 4.6);
    ("publishedYear", VNumber 2011);
    ("isbn", VString "978-0062060624")]].

Definition mockUsers : list jsval := [
  object [
    ("id", VString "1");
    ("email", VString "john.doe@example.com");
    ("name", VString "John Doe");
    ("role", VString "user");
    ("createdAt", VString "2024-01-15T10:00:00Z")];
  object [
    ("id", VString "2");
    ("email", VString "admin@library.com");
    ("name", VString "Admin User");
    ("role", VString "admin");
    ("createdAt", VString "2024-01-01T10:00:00Z")]].

Definition mockReadingLists : list jsval := [
  object [
    ("id", VString "1");
    ("userId", VString "1");
    ("name", VString "Summer Reading 2024");
    ("description", VString "Books to read during summer vacation");
    ("bookIds", VArray [VString "1"; VString "2"; VString "4"]);
    ("createdAt", VString "2024-06-01T10:00:00Z");
    ("updatedAt", VString "2024-06-15T14:30:00Z")];
  object [
    ("id", VString "2");
    ("userId", VString "1");
    ("name", VString "Sci-Fi Favorites");
    ("description", VString "My favorite science fiction novels");
    ("bookIds", VArray [VString "2"; VString "7"]);
    ("createdAt", VString "2024-05-10T10:00:00Z");
    ("updatedAt", VString "2024-05-10T10:00:00Z")]].

(** The string under [k], when there is one. *)
Definition string_field (k : string) (v : jsval) : option string :=
  match js_get k v with
  | VString s => Some s
  | _ => None
  end.

(** The elements of an array. *)
Definition elements_of (v : jsval) : list jsval :=
  match v with
  | VArray items => items
  | _ => []
  end.

(** * Properties *)

(** ** The API computations *)

Lemma settled_bind {A B : Type} (m : Api A) (k : A -> Api B) :
  settled (m ≫= k) =
  match settled m with
  | Return a => settled (k a)
  | Throw e => Throw e
  end.
Proof.
  destruct m as [log [a|e]]; unfold settled, mbind, Api_bind; simpl; [|done].
  by destruct (k a).
Qed.

Lemma sent_bind {A B : Type} (m : Api A) (k : A -> Api B) :
  sent (m ≫= k) =
  (sent m ++ match settled m with
             | Return a => sent (k a)
             | Throw e => []
             end)%list.
Proof.
  destruct m as [log [a|e]]; unfold sent, settled, mbind, Api_bind; simpl.
  - destruct (k a). reflexivity.
  - symmetry. apply app_nil_r.
Qed.

Lemma settled_lift {A B : Type} (m : outcome A) (k : A -> Api B) :
  settled (lift m ≫= k) =
  match m with
  | Return a => settled (k a)
  | Throw e => Throw e
  end.
Proof. by rewrite settled_bind. Qed.

Lemma object_with_js_in (k : string) (data : jsval) :
  object_with k data = js_in k data.
Proof.
  unfold object_with. destruct data; simpl; by rewrite ?andb_false_r.
Qed.

Lemma js_in_Some (k : string) (props : gmap string jsval) (v : jsval) :
  props !! k = Some v -> js_in k (VObject props) = true.
Proof. intros Hk. simpl. apply bool_decide_eq_true. by exists v. Qed.

Lemma js_in_None (k : string) (props : gmap string jsval) :
  props !! k = None -> js_in k (VObject props) = false.
Proof.
  intros Hk. simpl. apply bool_decide_eq_false. rewrite Hk. by intros [v ?].
Qed.

Section ApiFacts.
Context `{Platform}.

Lemma settled_fetch {A : Type} (request : Request) (k : Response -> Api A) :
  settled (fetch request ≫= k) =
  match respond request with
  | Return response => settled (k response)
  | Throw e => Throw e
  end.
Proof. by rewrite settled_bind. Qed.

(** What [getBooks] makes of a successful response once it is parsed. *)
Lemma getBooks_ok (response : Response) (data : jsval) :
  respond getBooks_request = Return response ->
  ok response = true ->
  parseApiJson response = Return data ->
  settled getBooks =
  Return (if Array_isArray data then data
          else if object_with "Items" data then js_get "Items" data
          else if object_with "books" data then js_get "books" data
          else VArray []).
Proof.
  intros Hfetch Hok Hparse. unfold getBooks.
  rewrite settled_fetch, Hfetch, Hok. cbn [negb].
  rewrite settled_lift, Hparse.
  by repeat case_match.
Qed.

Lemma getReadingLists_ok (response : Response) (data : jsval) :
  respond getReadingLists_request = Return response ->
  ok response = true ->
  parseApiJson response = Return data ->
  settled getReadingLists =
  Return (if Array_isArray data then data
          else if object_with "Items" data then js_get "Items" data
          else if object_with "readingLists" data
               then js_get "readingLists" data
          else VArray []).
Proof.
  intros Hfetch Hok Hparse. unfold getReadingLists.
  rewrite settled_fetch, Hfetch, Hok. cbn [negb].
  rewrite settled_lift, Hparse.
  by repeat case_match.
Qed.

(** An operation that checks [response.ok] first throws on a failed
    response, whatever it would have done next. *)
Lemma settled_not_ok {A : Type} (request : Request) (response : Response)
    (message : string) (k : Response -> Api A) :
  respond request = Return response ->
  ok response = false ->
  settled (response ← fetch request;
           if negb (ok response) then throw (Error message) else k response)
  = Throw (Error message).
Proof. intros Hfetch Hok. by rewrite settled_fetch, Hfetch, Hok. Qed.

End ApiFacts.

(** ** Envelope shapes of list responses *)

(** C1, as the code has it: on a successful response whose parsed body is
    a bare array, an object whose [Items] field is an array, or an object
    without an [Items] field whose [books] field is an array, [getBooks]
    returns exactly that inner array. *)
Theorem getBooks_unwraps_envelopes `{Platform}
    (response : Response) (data : jsval) (inner : list jsval) :
  respond getBooks_request = Return response ->
  ok response = true ->
  parseApiJson response = Return data ->
  data = VArray inner \/
  (exists props, data = VObject props /\
     props !! "Items" = Some (VArray inner)) \/
  (exists props, data = VObject props /\
     props !! "Items" = None /\ props !! "books" = Some (VArray inner)) ->
  settled getBooks = Return (VArray inner).
Proof.
  intros Hfetch Hok Hparse Hshape.
  rewrite (getBooks_ok response data Hfetch Hok Hparse).
  destruct Hshape as [->|[(props & -> & HItems)|(props & -> & HItems & Hbooks)]].
  - reflexivity.
  - cbn [Array_isArray]. rewrite object_with_js_in, (js_in_Some _ _ _ HItems).
    simpl. by rewrite HItems.
  - cbn [Array_isArray].
    rewrite !object_with_js_in, (js_in_None _ _ HItems), (js_in_Some _ _ _ Hbooks).
    simpl. by rewrite Hbooks.
Qed.

Lemma getBooks_unwraps_envelopes_witness :
  let books := [object [("id", VString "1"); ("title", VString "Dune")]] in
  let response :=
    {| status := 200; json := Return (object [("books", VArray books)]) |} in
  settled (@getBooks (answering response)) = Return (VArray books).
Proof.
  intros books response.
  apply (@getBooks_unwraps_envelopes (answering response) response
           (object [("books", VArray books)]) books).
  - reflexivity.
  - reflexivity.
  - reflexivity.
  - right. right. eexists. split; [reflexivity|]. split; reflexivity.
Defined.

(** C1 as stated fails: a body with a [books] array and an [Items] field
    that is not one makes [getBooks] return the [Items] value. *)
Lemma getBooks_books_behind_Items :
  let data := object [("Items", VNull); ("books", VArray [VString "b"])] in
  let response := {| status := 200; json := Return data |} in
  ok response = true /\
  @parseApiJson (answering response) response = Return data /\
  js_get "books" data = VArray [VString "b"] /\
  settled (@getBooks (answering response)) = Return VNull /\
  @Return jsval VNull <> Return (VArray [VString "b"]).
Proof. repeat split; try reflexivity. discriminate. Qed.

(** C7, as the code has it: on a successful response whose parsed body is
    an object without an [Items] field whose [readingLists] field is an
    array, [getReadingLists] returns that inner array. *)
Theorem getReadingLists_unwraps_readingLists `{Platform}
    (response : Response) (props : gmap string jsval) (inner : list jsval) :
  respond getReadingLists_request = Return response ->
  ok response = true ->
  parseApiJson response = Return (VObject props) ->
  props !! "Items" = None ->
  props !! "readingLists" = Some (VArray inner) ->
  settled getReadingLists = Return (VArray inner).
Proof.
  intros Hfetch Hok Hparse HItems Hlists.
  rewrite (getReadingLists_ok response _ Hfetch Hok Hparse).
  cbn [Array_isArray].
  rewrite !object_with_js_in, (js_in_None _ _ HItems), (js_in_Some _ _ _ Hlists).
  simpl. by rewrite Hlists.
Qed.

Lemma getReadingLists_unwraps_readingLists_witness :
  let lists := [object [("id", VString "1"); ("name", VString "Sci-Fi Favorites")]] in
  let response :=
    {| status := 200; json := Return (object [("readingLists", VArray lists)]) |} in
  settled (@getReadingLists (answering response)) = Return (VArray lists).
Proof.
  intros lists response.
  apply (@getReadingLists_unwraps_readingLists (answering response) response
           {["readingLists" := VArray lists]} lists); reflexivity.
Defined.

(** C7 as stated fails: when the body also has an [Items] field,
    [getReadingLists] returns that field and not the [readingLists] array. *)
Lemma getReadingLists_readingLists_behind_Items :
  let data :=
    object [("Items", VNull); ("readingLists", VArray [VString "l"])] in
  let response := {| status := 200; json := Return data |} in
  ok response = true /\
  @parseApiJson (answering response) response = Return data /\
  js_get "readingLists" data = VArray [VString "l"] /\
  settled (@getReadingLists (answering response)) = Return VNull /\
  @Return jsval VNull <> Return (VArray [VString "l"]).
Proof. repeat split; try reflexivity. discriminate. Qed.

(** C8, as the code has it: on a successful response whose parsed body is
    neither an array nor an object with an [Items] field or the
    operation's own list field ([books], [readingLists]), whatever those
    fields hold, [getBooks] and [getReadingLists] return the empty list. *)
Theorem unrecognised_body_gives_empty_list `{Platform}
    (response : Response) (data : jsval) :
  ok response = true ->
  parseApiJson response = Return data ->
  Array_isArray data = false ->
  js_in "Items" data = false ->
  (respond getBooks_request = Return response ->
   js_in "books" data = false ->
   settled getBooks = Return (VArray [])) /\
  (respond getReadingLists_request = Return response ->
   js_in "readingLists" data = false ->
   settled getReadingLists = Return (VArray [])).
Proof.
  intros Hok Hparse Harray HItems. split; intros Hfetch Hown.
  - rewrite (getBooks_ok response data Hfetch Hok Hparse).
    by rewrite Harray, !object_with_js_in, HItems, Hown.
  - rewrite (getReadingLists_ok response data Hfetch Hok Hparse).
    by rewrite Harray, !object_with_js_in, HItems, Hown.
Qed.

Lemma unrecognised_body_gives_empty_list_witness :
  let data := object [("message", VString "no lists yet")] in
  let response := {| status := 200; json := Return data |} in
  settled (@getBooks (answering response)) = Return (VArray []) /\
  settled (@getReadingLists (answering response)) = Return (VArray []).
Proof.
  intros data response.
  destruct (@unrecognised_body_gives_empty_list (answering response)
              response data) as [Hbooks Hlists]; try reflexivity.
  split; [apply Hbooks | apply Hlists]; reflexivity.
Defined.

(** C8 as stated fails: a body whose [Items] field is not an array is
    not answered with the empty list; the field's value is returned. *)
Lemma Items_not_an_array_is_returned :
  let data := object [("Items", VString "none")] in
  let response := {| status := 200; json := Return data |} in
  ok response = true /\
  @parseApiJson (answering response) response = Return data /\
  Array_isArray data = false /\
  Array_isArray (js_get "Items" data) = false /\
  js_in "books" data = false /\
  js_in "readingLists" data = false /\
  settled (@getBooks (answering response)) = Return (VString "none") /\
  settled (@getReadingLists (answering response)) = Return (VString "none") /\
  @Return jsval (VString "none") <> Return (VArray []).
Proof. repeat split; try reflexivity. discriminate. Qed.

(** ** Failed responses *)

Lemma not_ok_not_204 (response : Response) :
  ok response = false -> (status response =? 204) = false.
Proof. unfold ok. intros Hok. apply Z.eqb_neq. intros Hst. rewrite Hst in Hok. done. Qed.

(** C2, as the code has it: on a response outside 200-299 every operation
    that goes over HTTP throws a plain [Error] instead of returning, except
    [getBook] on a 404, which returns [null]. *)
Theorem failed_response_throws `{Platform}
    (op : operation) (response : Response) :
  respond (request_of op) = Return response ->
  ok response = false ->
  (forall id, op = GetBook id -> status response <> 404) ->
  exists message, settled (perform op) = Throw (Error message).
Proof.
  intros Hfetch Hok Hfound.
  destruct op as [|id| |list|id list|id]; simpl in Hfetch; simpl.
  - eexists. by apply (settled_not_ok _ response).
  - eexists. unfold getBook. rewrite settled_fetch, Hfetch.
    assert ((status response =? 404) = false) as ->
      by (apply Z.eqb_neq; by apply (Hfound id)).
    by rewrite Hok.
  - eexists. by apply (settled_not_ok _ response).
  - eexists. by apply (settled_not_ok _ response).
  - eexists. by apply (settled_not_ok _ response).
  - eexists. unfold deleteReadingList.
    by rewrite settled_fetch, Hfetch, Hok, not_ok_not_204.
Qed.

Lemma failed_response_throws_witness :
  let response := {| status := 500; json := Throw (SyntaxError "Unexpected end of JSON input") |} in
  exists message,
    settled (@perform (answering response) (DeleteReadingList "2"))
    = Throw (Error message).
Proof.
  intros response.
  apply (@failed_response_throws (answering response)
           (DeleteReadingList "2") response).
  - reflexivity.
  - reflexivity.
  - intros id Hop. discriminate Hop.
Defined.

(** C2 as stated fails: a 404 is outside 200-299, and [getBook] answers
    it by returning [null], not by throwing. *)
Lemma getBook_404_returns_null :
  let response := {| status := 404; json := Return (object [("message", VString "Not Found")]) |} in
  ok response = false /\
  settled (@perform (answering response) (GetBook "42")) = Return VNull.
Proof. split; reflexivity. Qed.

(** ** Request payloads *)

Lemma sent_once `{Platform} {A : Type}
    (request : Request) (message : string) (k : Response -> outcome A) :
  sent (response ← fetch request;
        if negb (ok response) then throw (Error message) else lift (k response))
  = [request].
Proof.
  rewrite sent_bind. unfold fetch at 1 2. cbn [sent settled fst snd].
  destruct (respond request) as [response|e]; [|done].
  by destruct (ok response).
Qed.

(** C6: whatever list the caller passes to [createReadingList] or
    [updateReadingList], with or without a [userId] of its own, the one
    request sent has as its body the JSON text of an object whose [userId]
    is ['1']; the other fields are the caller's. *)
Theorem reading_list_payload_has_current_user `{Platform}
    (id : string) (list : gmap string jsval) :
  exists payload : gmap string jsval,
    (exists request, sent (createReadingList list) = [request] /\
       body request = Some (JSON_stringify (VObject payload))) /\
    (exists request, sent (updateReadingList id list) = [request] /\
       body request = Some (JSON_stringify (VObject payload))) /\
    payload !! "userId" = Some (VString "1") /\
    (forall field, field <> "userId" -> payload !! field = list !! field).
Proof.
  exists (with_current_user list). repeat split.
  - eexists. split; [apply sent_once|reflexivity].
  - eexists. split; [apply sent_once|reflexivity].
  - apply lookup_insert_eq.
  - intros field Hfield. by apply lookup_insert_ne.
Qed.

(** ** Mocked operations *)

(** [Number_toString n] is the decimal numeral of [n]: read back as a
    signed decimal it gives [n]. *)
Lemma Number_toString_decimal (n : Z) :
  option_map Z.of_int (NilZero.int_of_string (Number_toString n)) = Some n.
Proof.
  unfold Number_toString. rewrite NilZero.isi.
  - simpl. f_equal. apply DecimalZ.of_to.
  - destruct n as [|p|p]; simpl; try discriminate.
    intros [= Hnil]. by apply (DecimalPos.Unsigned.to_uint_nonnil p).
  - destruct n as [|p|p]; simpl; try discriminate.
    intros [= Hnil]. by apply (DecimalPos.Unsigned.to_uint_nonnil p).
Qed.

(** C5, as the code has it: each mocked function resolves after a fixed
    delay.  [getRecommendations] resolves with one hard-coded payload on
    every invocation.  [getReviews] resolves, whenever it is called, with a
    single review that is hard-coded but for [bookId], which is the
    argument.  [createReview] resolves with the caller's review in which
    [id] is the decimal string of the first clock reading and [createdAt]
    the ISO rendering of the second; every other field is the caller's. *)
Theorem mocked_payloads `{Platform} :
  (delay getRecommendations = 1000 /\
   exists payload,
     forall clock, resolve getRecommendations clock = payload) /\
  (exists template : gmap string jsval,
     (template !! "id" = Some (VString "1") /\
      template !! "userId" = Some (VString "1") /\
      template !! "rating" = Some (VNumber 5) /\
      template !! "comment"
      = Some (VString "Absolutely loved this book! A must-read.") /\
      template !! "createdAt" = Some (VString "2024-11-01T10:00:00Z")) /\
     forall bookId clock,
       delay (getReviews bookId) = 500 /\
       resolve (getReviews bookId) clock
       = VArray [VObject (<["bookId" := VString bookId]> template)]) /\
  (forall review clock,
     delay (createReview review) = 500 /\
     exists props : gmap string jsval,
       resolve (createReview review) clock = VObject props /\
       props !! "id" = Some (VString (Number_toString (clock 0%nat))) /\
       props !! "createdAt" = Some (VString (toISOString (clock 1%nat))) /\
       forall field, field <> "id" -> field <> "createdAt" ->
         props !! field = review !! field).
Proof.
  split; [|split].
  - split; [reflexivity|].
    exists (resolve getRecommendations (ticking 0)). by intros clock.
  - exists (list_to_map
              [("id", VString "1"); ("userId", VString "1");
               ("rating", VNumber 5);
               ("comment", VString "Absolutely loved this book! A must-read.");
               ("createdAt", VString "2024-11-01T10:00:00Z")]).
    split; [repeat split; reflexivity|].
    intros bookId clock. split; reflexivity.
  - intros review clock. split; [reflexivity|].
    eexists. split; [reflexivity|]. split; [|split].
    + rewrite lookup_insert_ne by done. apply lookup_insert_eq.
    + apply lookup_insert_eq.
    + intros field Hid Hcreated. by rewrite !lookup_insert_ne.
Qed.

Lemma mocked_payloads_witness :
  let response := {| status := 200; json := Return VNull |} in
  js_get "comment"
    (resolve (@createReview (answering response)
                {["comment" := VString "Great"]}) (ticking 1730000000000))
  = VString "Great".
Proof.
  intros response.
  destruct (@mocked_payloads (answering response)) as (_ & _ & Hcreate).
  destruct (Hcreate {["comment" := VString "Great"]} (ticking 1730000000000))
    as (_ & props & Hresolve & _ & _ & Hfields).
  rewrite Hresolve. cbn [js_get].
  rewrite (Hfields "comment"); [reflexivity | discriminate | discriminate].
Defined.

(** C5 as stated fails: the payload of [getReviews] follows its argument,
    and that of [createReview] follows its argument and the clock. *)
Lemma mocked_payloads_differ :
  let response := {| status := 200; json := Return VNull |} in
  resolve (getReviews "1") (ticking 0) <> resolve (getReviews "2") (ticking 0) /\
  resolve (@createReview (answering response) ∅) (ticking 1000)
  <> resolve (@createReview (answering response) ∅) (ticking 2000) /\
  resolve (@createReview (answering response) {["rating" := VNumber 5]}) (ticking 0)
  <> resolve (@createReview (answering response) {["rating" := VNumber 1]}) (ticking 0).
Proof.
  intros response. repeat split; intros Heq.
  - apply (f_equal (fun v => js_get "bookId" (only_item v))) in Heq.
    vm_compute in Heq. discriminate Heq.
  - apply (f_equal (js_get "id")) in Heq.
    vm_compute in Heq. discriminate Heq.
  - apply (f_equal (js_get "rating")) in Heq.
    vm_compute in Heq. discriminate Heq.
Qed.

(** C9: the entity [createBook] or [createReview] resolves with has as its
    [id] the decimal string of what [Date.now()] shows in the callback,
    whatever [id] the caller's object had. *)
Theorem mock_ids_are_timestamps `{Platform}
    (book review : gmap string jsval) (clock : Clock) :
  js_get "id" (resolve (createBook book) clock)
  = VString (Number_toString (clock 0%nat)) /\
  js_get "id" (resolve (createReview review) clock)
  = VString (Number_toString (clock 0%nat)) /\
  option_map Z.of_int (NilZero.int_of_string (Number_toString (clock 0%nat)))
  = Some (clock 0%nat).
Proof.
  repeat split.
  - simpl. by rewrite lookup_insert_eq.
  - simpl. rewrite lookup_insert_ne by done. by rewrite lookup_insert_eq.
  - apply Number_toString_decimal.
Qed.

(** C10: every recommendation [getRecommendations] resolves with has a
    number as its [confidence], and that number lies in [0, 1]. *)
Theorem recommendation_confidence_in_unit_interval (clock : Clock) :
  exists recommendations,
    resolve getRecommendations clock = VArray recommendations /\
    Forall (fun recommendation =>
              exists confidence,
                js_get "confidence" recommendation = VNumber confidence /\
                PrimFloat.leb 0 confidence = true /\
                PrimFloat.leb confidence 1 = true)
           recommendations.
Proof.
  eexists. split; [reflexivity|].
  repeat constructor; eexists; (split; [vm_compute; reflexivity|]);
    split; reflexivity.
Qed.

(** ** The sign-up confirmation form *)

Import ConfirmSignup.

(** The errors [validate] leaves in the component's state. *)
Lemma validate_errors {V : Validation} (s : State) :
  errors (run s (validate s).1) =
  {| email_error :=
       if negb (validateRequired (email s)) then Some "Email is required"
       else if negb (validateEmail (email s)) then Some "Invalid email format"
       else None;
     code_error :=
       if negb (validateRequired (code s))
       then Some "Verification code is required" else None |}.
Proof.
  unfold validate, run.
  by destruct (validateRequired (email s)), (validateEmail (email s)),
    (validateRequired (code s)).
Qed.

(** [validate] answers [true] exactly when it records no error. *)
Lemma validate_true {V : Validation} (s : State) :
  (validate s).2 = true <->
  (validateRequired (email s) = true /\ validateEmail (email s) = true /\
   validateRequired (code s) = true).
Proof.
  unfold validate.
  destruct (validateRequired (email s)), (validateEmail (email s)),
    (validateRequired (code s)); simpl; intuition discriminate.
Qed.

(** [handleConfirm] calls the identity provider exactly when [validate]
    answers [true], and then with the form's email and code. *)
Lemma handleConfirm_calls {V : Validation} {I : Identity}
    (s : State) (username confirmationCode : string) :
  In (CallConfirmSignUp username confirmationCode) (handleConfirm s) <->
  ((validate s).2 = true /\ username = email s /\ confirmationCode = code s).
Proof.
  unfold handleConfirm. destruct (validate s) as [updates valid] eqn:Hvalidate.
  assert (updates = (validate s).1) as -> by by rewrite Hvalidate.
  unfold validate at 1. cbn [fst snd].
  destruct valid; cbn [negb]; simpl.
  - split.
    + destruct (confirmSignUp (email s) (code s)); simpl;
        intuition (try discriminate; try congruence).
    + intros (_ & -> & ->). auto.
  - intuition discriminate.
Qed.

(** C4: when the email is rejected by the required check or the format
    check, or the code by the required check, [validate] fails and sets the
    error of that field, and [handleConfirm] does not call the identity
    provider; it calls it exactly when both fields pass, with the form's
    email and code. *)
Theorem invalid_form_is_not_confirmed {V : Validation} {I : Identity}
    (s : State) :
  let recorded := errors (run s (validate s).1) in
  (validateRequired (email s) = false ->
   email_error recorded = Some "Email is required") /\
  (validateEmail (email s) = false ->
   email_error recorded =
   Some (if validateRequired (email s) then "Invalid email format"
         else "Email is required")) /\
  (validateRequired (code s) = false ->
   code_error recorded = Some "Verification code is required") /\
  (validateRequired (email s) = false \/ validateEmail (email s) = false \/
   validateRequired (code s) = false ->
   (validate s).2 = false /\
   forall username confirmationCode,
     ~ In (CallConfirmSignUp username confirmationCode) (handleConfirm s)) /\
  ((exists username confirmationCode,
      In (CallConfirmSignUp username confirmationCode) (handleConfirm s)) <->
   (validateRequired (email s) = true /\ validateEmail (email s) = true /\
    validateRequired (code s) = true)) /\
  (forall username confirmationCode,
     In (CallConfirmSignUp username confirmationCode) (handleConfirm s) ->
     username = email s /\ confirmationCode = code s).
Proof.
  intros recorded. subst recorded. rewrite validate_errors. cbn [email_error code_error].
  split; [by intros ->|]. split; [intros ->; by destruct (validateRequired _)|].
  split; [by intros ->|]. split; [|split].
  - intros Hbad.
    assert ((validate s).2 = false) as Hfails.
    { apply not_true_iff_false. rewrite validate_true.
      intros (Hre & Hve & Hrc). rewrite Hre, Hve, Hrc in Hbad.
      by destruct Hbad as [|[|]]. }
    split; [done|]. intros username confirmationCode.
    rewrite handleConfirm_calls, Hfails. by intros [? _].
  - rewrite <- validate_true. split.
    + intros (username & confirmationCode & Hcall).
      by apply handleConfirm_calls in Hcall as [? _].
    + intros Hvalid. exists (email s), (code s). by apply handleConfirm_calls.
  - intros username confirmationCode Hcall.
    by apply handleConfirm_calls in Hcall as (_ & ? & ?).
Qed.

Lemma invalid_form_is_not_confirmed_witness :
  let s := {| email := "john.doe"; code := ""; errors := no_errors;
              isLoading := false; isResending := false |} in
  (@validate plain_validation s).2 = false /\
  forall username confirmationCode,
    ~ In (CallConfirmSignUp username confirmationCode)
         (@handleConfirm plain_validation accepting s).
Proof.
  intros s.
  destruct (@invalid_form_is_not_confirmed plain_validation accepting s)
    as (_ & _ & _ & Hbad & _).
  apply Hbad. right. left. reflexivity.
Defined.

(** The cases of [handleResend] in which the email is turned down: the
    trace is a single [SetErrors]. *)
Ltac rejected_email :=
  split; [split; [intros [? [Hcall|[]]]; discriminate Hcall | discriminate]|];
  split; [split; [discriminate | intros [? ?]; discriminate]|];
  split; [intros ? [Hcall|[]]; discriminate Hcall|];
  split; [reflexivity|];
  intros _ ->; reflexivity.

(** C3, as the code has it: [handleResend] calls the resend operation
    exactly when [validate] would record no email error, that is when the
    email passes the required check and the format check; otherwise it
    records the same email error as [validate] and no code error, so that
    its error state is [validate]'s when the code passes the required
    check. *)
Theorem handleResend_follows_email_validation {V : Validation} {I : Identity}
    (s : State) :
  let recorded := errors (run s (validate s).1) in
  ((exists username, In (CallResendSignUpCode username) (handleResend s)) <->
   email_error recorded = None) /\
  (email_error recorded = None <->
   (validateRequired (email s) = true /\ validateEmail (email s) = true)) /\
  (forall username, In (CallResendSignUpCode username) (handleResend s) ->
     username = email s) /\
  (email_error recorded <> None ->
   handleResend s =
   [SetErrors {| email_error := email_error recorded; code_error := None |}]) /\
  (email_error recorded <> None -> validateRequired (code s) = true ->
   errors (run s (handleResend s)) = recorded).
Proof.
  intros recorded. subst recorded. rewrite validate_errors.
  cbn [email_error code_error]. unfold handleResend, run.
  destruct (validateRequired (email s)), (validateEmail (email s));
    cbn [negb]; simpl.
  - destruct (resendSignUpCode (email s)); simpl;
      (repeat split; try done; try (intros; exists (email s));
       intuition (try discriminate; try congruence)).
  - rejected_email.
  - rejected_email.
  - rejected_email.
Qed.

Lemma handleResend_follows_email_validation_witness :
  let malformed := {| email := "john.doe"; code := "123456"; errors := no_errors;
                      isLoading := false; isResending := false |} in
  let fine := {| email := "john.doe@example.com"; code := ""; errors := no_errors;
                 isLoading := false; isResending := false |} in
  errors (run malformed (@handleResend plain_validation accepting malformed))
  = errors (run malformed (@validate plain_validation malformed).1) /\
  exists username,
    In (CallResendSignUpCode username) (@handleResend plain_validation accepting fine).
Proof.
  intros malformed fine. split.
  - destruct (@handleResend_follows_email_validation plain_validation accepting
                malformed) as (_ & _ & _ & _ & Hsame).
    apply Hsame; [vm_compute; discriminate | reflexivity].
  - destruct (@handleResend_follows_email_validation plain_validation accepting
                fine) as (Hcalls & _).
    apply Hcalls. reflexivity.
Defined.

(** C3 as stated fails: with the email and the code both empty,
    [validate] records an error for each field, [handleResend] only the
    one for the email. *)
Lemma handleResend_records_no_code_error :
  let s := {| email := ""; code := ""; errors := no_errors;
              isLoading := false; isResending := false |} in
  errors (run s (@validate plain_validation s).1)
  = {| email_error := Some "Email is required";
       code_error := Some "Verification code is required" |} /\
  errors (run s (@handleResend plain_validation accepting s))
  = {| email_error := Some "Email is required"; code_error := None |} /\
  errors (run s (@handleResend plain_validation accepting s))
  <> errors (run s (@validate plain_validation s).1).
Proof. repeat split. discriminate. Qed.

(** * Further properties of the API service *)

Lemma sent_lift {A B : Type} (m : outcome A) (k : A -> Api B) :
  sent (lift m ≫= k) =
  match m with
  | Return a => sent (k a)
  | Throw e => []
  end.
Proof. by rewrite sent_bind. Qed.

Lemma sent_fetch_bind `{Platform} {A : Type}
    (request : Request) (k : Response -> Api A) :
  sent (fetch request ≫= k) =
  request :: match respond request with
             | Return response => sent (k response)
             | Throw e => []
             end.
Proof. by rewrite sent_bind. Qed.

(** A successful status is not 404. *)
Lemma ok_not_404 (response : Response) :
  ok response = true -> (status response =? 404) = false.
Proof.
  unfold ok. intros Hok. apply Z.eqb_neq. intros Hst. rewrite Hst in Hok. done.
Qed.

(** X1: every operation sends exactly one request, the one it is built
    around, whatever the network and the parser answer: nothing is
    retried and nothing follows up. *)
Theorem one_request_per_operation `{Platform} (op : operation) :
  sent (perform op) = [request_of op].
Proof.
  destruct op as [|id| |list|id list|id]; simpl.
  - unfold getBooks. rewrite sent_fetch_bind. f_equal.
    destruct (respond getBooks_request) as [response|e]; [|done].
    destruct (ok response); [|done]. cbn [negb].
    rewrite sent_lift. destruct (parseApiJson response) as [data|e]; [|done].
    by repeat case_match.
  - unfold getBook. rewrite sent_fetch_bind. f_equal.
    destruct (respond (getBook_request id)) as [response|e]; [|done].
    destruct (status response =? 404); [done|].
    by destruct (ok response).
  - unfold getReadingLists. rewrite sent_fetch_bind. f_equal.
    destruct (respond getReadingLists_request) as [response|e]; [|done].
    destruct (ok response); [|done]. cbn [negb].
    rewrite sent_lift. destruct (parseApiJson response) as [data|e]; [|done].
    by repeat case_match.
  - apply sent_once.
  - apply sent_once.
  - unfold deleteReadingList. rewrite sent_fetch_bind. f_equal.
    destruct (respond (deleteReadingList_request id)) as [response|e]; [|done].
    by destruct (negb (ok response) && negb (status response =? 204)).
Qed.

(** X2: when [fetch] itself rejects, every operation rejects with the
    very same error; none of them catches it or wraps it. *)
Theorem network_failure_propagates `{Platform} (op : operation) (e : exn) :
  respond (request_of op) = Throw e ->
  settled (perform op) = Throw e.
Proof.
  intros Hfetch.
  destruct op; simpl in *;
    unfold getBooks, getBook, getReadingLists, createReadingList,
      updateReadingList, deleteReadingList;
    by rewrite settled_fetch, Hfetch.
Qed.

Lemma network_failure_propagates_witness :
  settled (@perform (unreachable (TypeError "Failed to fetch")) GetBooks)
  = Throw (TypeError "Failed to fetch").
Proof.
  apply (@network_failure_propagates (unreachable (TypeError "Failed to fetch"))
           GetBooks (TypeError "Failed to fetch")).
  reflexivity.
Defined.

(** When [response.json()] rejects, so does [parseApiJson]. *)
Lemma parseApiJson_unreadable `{Platform} (response : Response) (e : exn) :
  json response = Throw e -> parseApiJson response = Throw e.
Proof. intros Hjson. unfold parseApiJson. by rewrite Hjson. Qed.

(** X3: on a successful response whose body cannot be read as JSON, the
    operations that read the body reject with the reader's error; the
    list operations do not fall back to the empty list. *)
Theorem unreadable_body_propagates `{Platform}
    (op : operation) (response : Response) (e : exn) :
  respond (request_of op) = Return response ->
  ok response = true ->
  json response = Throw e ->
  (forall id, op <> DeleteReadingList id) ->
  settled (perform op) = Throw e.
Proof.
  intros Hfetch Hok Hjson Hreads.
  pose proof (parseApiJson_unreadable response e Hjson) as Hparse.
  destruct op as [|id| |list|id list|id]; simpl in *.
  - unfold getBooks. rewrite settled_fetch, Hfetch, Hok. cbn [negb].
    by rewrite settled_lift, Hparse.
  - unfold getBook. rewrite settled_fetch, Hfetch, (ok_not_404 _ Hok), Hok.
    cbn [negb]. by rewrite Hparse.
  - unfold getReadingLists. rewrite settled_fetch, Hfetch, Hok. cbn [negb].
    by rewrite settled_lift, Hparse.
  - unfold createReadingList. rewrite settled_fetch, Hfetch, Hok.
    cbn [negb]. by rewrite Hparse.
  - unfold updateReadingList. rewrite settled_fetch, Hfetch, Hok.
    cbn [negb]. by rewrite Hparse.
  - by destruct (Hreads id).
Qed.

Lemma unreadable_body_propagates_witness :
  let e := SyntaxError "Unexpected end of JSON input" in
  let response := {| status := 200; json := Throw e |} in
  settled (@perform (answering response) GetReadingLists) = Throw e.
Proof.
  intros e response.
  apply (@unreadable_body_propagates (answering response)
           GetReadingLists response e); try reflexivity.
  intros id Hop. discriminate Hop.
Defined.

(** X4: [deleteReadingList] fulfils with [undefined] on exactly the
    responses in 200-299 and throws on all others; it never reads the body,
    and its separate test for 204 changes nothing. *)
Theorem deleteReadingList_outcome `{Platform} (id : string) (response : Response) :
  respond (deleteReadingList_request id) = Return response ->
  settled (deleteReadingList id) =
  if ok response then Return VUndefined
  else Throw (Error "Failed to delete reading list").
Proof.
  intros Hfetch. unfold deleteReadingList. rewrite settled_fetch, Hfetch.
  destruct (ok response) eqn:Hok; [done|].
  by rewrite (not_ok_not_204 _ Hok).
Qed.

Lemma deleteReadingList_outcome_witness :
  let response :=
    {| status := 204; json := Throw (SyntaxError "Unexpected end of JSON input") |} in
  settled (@deleteReadingList (answering response) "2") = Return VUndefined.
Proof.
  intros response.
  apply (@deleteReadingList_outcome (answering response) "2" response).
  reflexivity.
Defined.

(** X5: [getBook] answers every 404 with [null], before it looks at
    anything else in the response: the body may be unreadable. *)
Theorem getBook_not_found `{Platform} (id : string) (response : Response) :
  respond (getBook_request id) = Return response ->
  status response = 404 ->
  settled (getBook id) = Return VNull.
Proof.
  intros Hfetch Hstatus. unfold getBook.
  by rewrite settled_fetch, Hfetch, Hstatus.
Qed.

Lemma getBook_not_found_witness :
  let response := {| status := 404; json := Throw (SyntaxError "Unexpected token <") |} in
  settled (@getBook (answering response) "999") = Return VNull.
Proof.
  intros response.
  apply (@getBook_not_found (answering response) "999" response); reflexivity.
Defined.

(** X6: on a successful response, [getBook], [createReadingList] and
    [updateReadingList] settle as [parseApiJson] does on that response:
    the parsed body is handed back as it is, with no check of its shape. *)
Theorem parsed_body_is_the_result `{Platform}
    (id : string) (list : gmap string jsval) (response : Response) :
  ok response = true ->
  (respond (getBook_request id) = Return response ->
   settled (getBook id) = parseApiJson response) /\
  (respond (createReadingList_request list) = Return response ->
   settled (createReadingList list) = parseApiJson response) /\
  (respond (updateReadingList_request id list) = Return response ->
   settled (updateReadingList id list) = parseApiJson response).
Proof.
  intros Hok. repeat split; intros Hfetch.
  - unfold getBook. by rewrite settled_fetch, Hfetch, (ok_not_404 _ Hok), Hok.
  - unfold createReadingList. by rewrite settled_fetch, Hfetch, Hok.
  - unfold updateReadingList. by rewrite settled_fetch, Hfetch, Hok.
Qed.

Lemma parsed_body_is_the_result_witness :
  let created := object [("id", VString "3"); ("name", VString "Classics")] in
  let response := {| status := 201; json := Return created |} in
  settled (@createReadingList (answering response) {["name" := VString "Classics"]})
  = Return created.
Proof.
  intros created response.
  destruct (@parsed_body_is_the_result (answering response) "3"
              {["name" := VString "Classics"]} response) as (_ & Hcreate & _).
  - reflexivity.
  - rewrite Hcreate; reflexivity.
Defined.

(** X7: the error thrown on a failed response is fixed by the operation
    alone: its message names the operation and carries nothing of the
    status or the body. *)
Theorem failed_response_message `{Platform}
    (op : operation) (response : Response) :
  respond (request_of op) = Return response ->
  ok response = false ->
  (forall id, op = GetBook id -> status response <> 404) ->
  settled (perform op) = Throw (Error (failure_message op)).
Proof.
  intros Hfetch Hok Hfound.
  destruct op as [|id| |list|id list|id]; simpl in Hfetch; simpl.
  - by apply (settled_not_ok _ response).
  - unfold getBook. rewrite settled_fetch, Hfetch.
    assert ((status response =? 404) = false) as ->
      by (apply Z.eqb_neq; by apply (Hfound id)).
    by rewrite Hok.
  - by apply (settled_not_ok _ response).
  - by apply (settled_not_ok _ response).
  - by apply (settled_not_ok _ response).
  - unfold deleteReadingList.
    by rewrite settled_fetch, Hfetch, Hok, not_ok_not_204.
Qed.

Lemma failed_response_message_witness :
  let response :=
    {| status := 503; json := Return (object [("message", VString "Service Unavailable")]) |} in
  settled (@perform (answering response) (UpdateReadingList "1" ∅))
  = Throw (Error "Failed to update reading list").
Proof.
  intros response.
  apply (@failed_response_message (answering response)
           (UpdateReadingList "1" ∅) response).
  - reflexivity.
  - reflexivity.
  - intros id Hop. discriminate Hop.
Defined.

(** ** Parsing the body *)

(** X8: a body that is itself a string, and an object whose [body] field
    is a string, are both answered by running [JSON.parse] on that string:
    its value when it parses, its error when it does not. *)
Theorem parseApiJson_parses_text `{Platform} (response : Response) (text : string) :
  json response = Return (VString text) \/
  (exists props, json response = Return (VObject props) /\
     props !! "body" = Some (VString text)) ->
  parseApiJson response = JSON_parse text.
Proof.
  unfold parseApiJson. intros [Hjson|(props & Hjson & Hbody)]; rewrite Hjson.
  - reflexivity.
  - cbn [mbind outcome_bind]. rewrite object_with_js_in, (js_in_Some _ _ _ Hbody).
    simpl. by rewrite Hbody.
Qed.

Lemma parseApiJson_parses_text_witness :
  let response :=
    {| status := 200;
       json := Return (object [("statusCode", VNumber 200);
                               ("body", VString "[]")]) |} in
  @parseApiJson (parsing (knowing "[]" (VArray [])) response) response
  = Return (VArray []) /\
  @parseApiJson (parsing (knowing "[]" (VArray [])) response)
    {| status := 200; json := Return (VString "oops") |}
  = Throw (SyntaxError "Unexpected token").
Proof.
  intros response. split.
  - rewrite (@parseApiJson_parses_text (parsing (knowing "[]" (VArray [])) response)
               response "[]"); [reflexivity|].
    right. eexists. split; reflexivity.
  - rewrite (@parseApiJson_parses_text (parsing (knowing "[]" (VArray [])) response)
               _ "oops"); [reflexivity|].
    left. reflexivity.
Defined.

(** X9: a list wrapped the way an API Gateway proxy integration wraps it,
    as JSON text under [body], reaches the caller of [getBooks] and of
    [getReadingLists] as the list. *)
Theorem lists_come_through_the_proxy_envelope `{Platform}
    (response : Response) (props : gmap string jsval) (text : string)
    (inner : list jsval) :
  ok response = true ->
  json response = Return (VObject props) ->
  props !! "body" = Some (VString text) ->
  JSON_parse text = Return (VArray inner) ->
  (respond getBooks_request = Return response ->
   settled getBooks = Return (VArray inner)) /\
  (respond getReadingLists_request = Return response ->
   settled getReadingLists = Return (VArray inner)).
Proof.
  intros Hok Hjson Hbody Htext.
  assert (parseApiJson response = Return (VArray inner)) as Hparse.
  { unfold parseApiJson. rewrite Hjson. cbn [mbind outcome_bind].
    rewrite object_with_js_in, (js_in_Some _ _ _ Hbody). simpl.
    by rewrite Hbody. }
  split; intros Hfetch.
  - by rewrite (getBooks_ok response _ Hfetch Hok Hparse).
  - by rewrite (getReadingLists_ok response _ Hfetch Hok Hparse).
Qed.

Lemma lists_come_through_the_proxy_envelope_witness :
  let lists := [VNumber 1; VNumber 2] in
  let response :=
    {| status := 200;
       json := Return (object [("statusCode", VNumber 200);
                               ("body", VString "[1,2]")]) |} in
  settled (@getReadingLists (parsing (knowing "[1,2]" (VArray lists)) response))
  = Return (VArray lists).
Proof.
  intros lists response.
  destruct (@lists_come_through_the_proxy_envelope
              (parsing (knowing "[1,2]" (VArray lists)) response) response
              (list_to_map [("statusCode", VNumber 200); ("body", VString "[1,2]")])
              "[1,2]" lists eq_refl eq_refl eq_refl eq_refl) as [_ Hlists].
  apply Hlists. reflexivity.
Defined.

(** X10: the [body] field is unwrapped once and no further: when it is
    not a string it is handed back as it is, be it [null], a list, or an
    object with a [body] of its own. *)
Theorem parseApiJson_unwraps_once `{Platform}
    (response : Response) (props : gmap string jsval) (inner : jsval) :
  json response = Return (VObject props) ->
  props !! "body" = Some inner ->
  (forall text, inner <> VString text) ->
  parseApiJson response = Return inner.
Proof.
  intros Hjson Hbody Hplain. unfold parseApiJson. rewrite Hjson.
  cbn [mbind outcome_bind]. rewrite object_with_js_in, (js_in_Some _ _ _ Hbody).
  simpl. rewrite Hbody. simpl.
  destruct inner; try reflexivity. by destruct (Hplain s).
Qed.

Lemma parseApiJson_unwraps_once_witness :
  let nested := object [("body", VString "[1,2]")] in
  let response := {| status := 200; json := Return (object [("body", nested)]) |} in
  @parseApiJson (parsing (knowing "[1,2]" (VArray [VNumber 1; VNumber 2])) response)
    response
  = Return nested.
Proof.
  intros nested response.
  apply (@parseApiJson_unwraps_once _ response {["body" := nested]} nested).
  - reflexivity.
  - reflexivity.
  - intros text Htext. discriminate Htext.
Defined.

(** X11: a body that is not a string and has no [body] field comes out of
    [parseApiJson] unchanged. *)
Theorem parseApiJson_plain `{Platform} (response : Response) (data : jsval) :
  json response = Return data ->
  (forall text, data <> VString text) ->
  js_in "body" data = false ->
  parseApiJson response = Return data.
Proof.
  intros Hjson Hplain Hbody. unfold parseApiJson. rewrite Hjson.
  cbn [mbind outcome_bind]. rewrite object_with_js_in, Hbody.
  destruct data; try reflexivity. by destruct (Hplain s).
Qed.

Lemma parseApiJson_plain_witness :
  let data := object [("Items", VArray []); ("Count", VNumber 0)] in
  let response := {| status := 200; json := Return data |} in
  @parseApiJson (answering response) response = Return data.
Proof.
  intros data response.
  apply (@parseApiJson_plain (answering response) response data).
  - reflexivity.
  - intros text Htext. discriminate Htext.
  - reflexivity.
Defined.

(** X12: when the parsed body is an object with an [Items] field, both
    list operations return what that field holds, whatever it is and
    whatever other fields there are. *)
Theorem Items_field_is_returned `{Platform}
    (response : Response) (props : gmap string jsval) (held : jsval) :
  ok response = true ->
  parseApiJson response = Return (VObject props) ->
  props !! "Items" = Some held ->
  (respond getBooks_request = Return response ->
   settled getBooks = Return held) /\
  (respond getReadingLists_request = Return response ->
   settled getReadingLists = Return held).
Proof.
  intros Hok Hparse HItems. split; intros Hfetch.
  - rewrite (getBooks_ok response _ Hfetch Hok Hparse). cbn [Array_isArray].
    rewrite object_with_js_in, (js_in_Some _ _ _ HItems). simpl. by rewrite HItems.
  - rewrite (getReadingLists_ok response _ Hfetch Hok Hparse). cbn [Array_isArray].
    rewrite object_with_js_in, (js_in_Some _ _ _ HItems). simpl. by rewrite HItems.
Qed.

Lemma Items_field_is_returned_witness :
  let scanned := VArray [object [("id", VString "1")]] in
  let response :=
    {| status := 200;
       json := Return (object [("Items", scanned); ("Count", VNumber 1);
                               ("ScannedCount", VNumber 1)]) |} in
  settled (@getBooks (answering response)) = Return scanned.
Proof.
  intros scanned response.
  pose proof (@Items_field_is_returned (answering response) response
                (list_to_map [("Items", scanned); ("Count", VNumber 1);
                              ("ScannedCount", VNumber 1)])
                scanned eq_refl eq_refl eq_refl) as [Hbooks _].
  apply Hbooks. reflexivity.
Defined.

(** * Further properties of the mocked operations *)

Lemma Number_toString_inj (m n : Z) :
  Number_toString m = Number_toString n -> m = n.
Proof.
  intros Heq. pose proof (Number_toString_decimal m) as Hm.
  rewrite Heq, Number_toString_decimal in Hm. by injection Hm.
Qed.



(** X15: two books made up by [createBook] carry the same [id] exactly
    when their callbacks read the same millisecond off the clock; the
    books themselves play no part. *)
Theorem mock_ids_collide_at_the_same_instant
    (book book' : gmap string jsval) (clock clock' : Clock) :
  js_get "id" (resolve (createBook book) clock)
  = js_get "id" (resolve (createBook book') clock')
  <-> clock 0%nat = clock' 0%nat.
Proof.
  simpl. rewrite !lookup_insert_eq. simpl. split.
  - intros [= Hid]. by apply Number_toString_inj.
  - by intros ->.
Qed.

(** X16: [createReview] resolves with an object that has the caller's
    fields together with [id] and [createdAt], and [createdAt] is the
    formatted clock reading, whatever [createdAt] the caller supplied. *)
Theorem createReview_stamps `{Platform}
    (review : gmap string jsval) (clock : Clock) :
  exists props : gmap string jsval,
    resolve (createReview review) clock = VObject props /\
    props !! "createdAt" = Some (VString (toISOString (clock 1%nat))) /\
    dom props = {["createdAt"]} ∪ ({["id"]} ∪ dom review).
Proof.
  eexists. split; [reflexivity|]. split.
  - apply lookup_insert_eq.
  - by rewrite !dom_insert_L.
Qed.

(** ** Mock data *)

(** X17: the mock tables are consistent: within each table the ids are
    pairwise distinct, every reading list belongs to a mock user, and every
    book id in a reading list is the id of a mock book. *)
Theorem mock_data_is_consistent :
  NoDup (map (string_field "id") mockBooks) /\
  NoDup (map (string_field "id") mockUsers) /\
  NoDup (map (string_field "id") mockReadingLists) /\
  Forall (fun list =>
            In (js_get "userId" list) (map (js_get "id") mockUsers) /\
            Forall (fun ref => In ref (map (js_get "id") mockBooks))
                   (elements_of (js_get "bookIds" list)))
         mockReadingLists.
Proof.
  split; [|split; [|split]].
  - apply (bool_decide_unpack _). vm_compute. reflexivity.
  - apply (bool_decide_unpack _). vm_compute. reflexivity.
  - apply (bool_decide_unpack _). vm_compute. reflexivity.
  - repeat constructor; vm_compute; tauto.
Qed.

(** * Further properties of the sign-up confirmation form *)

(** The shape of every run of [handleConfirm]. *)
Lemma handleConfirm_trace {V : Validation} {I : Identity} (s : State) :
  handleConfirm s =
  PreventDefault :: (validate s).1 ++
  if (validate s).2 then
    [SetIsLoading true; CallConfirmSignUp (email s) (code s)] ++
    match confirmSignUp (email s) (code s) with
    | Return _ =>
      [ShowSuccess "Account verified. You can sign in now."; Navigate "/login"]
    | Throw error => [HandleApiError error]
    end ++ [SetIsLoading false]
  else [].
Proof.
  unfold handleConfirm. destruct (validate s) as [updates valid].
  by destruct valid.
Qed.

(** [validate] makes one update, to the errors. *)
Lemma validate_updates {V : Validation} (s : State) :
  (validate s).1 = [SetErrors (errors (run s (validate s).1))].
Proof. reflexivity. Qed.

(** A form that [validate] accepts is left without errors. *)
Lemma validate_true_errors {V : Validation} (s : State) :
  (validate s).2 = true -> errors (run s (validate s).1) = no_errors.
Proof.
  rewrite validate_true, validate_errors. by intros (-> & -> & ->).
Qed.

(** From where a trace is cut in two, peel one event off the front. *)
Ltac peel Hcut before :=
  destruct before as [|? before]; simpl in Hcut;
  [ try discriminate Hcut
  | try discriminate Hcut; injection Hcut as <- Hcut ].

(** X18: [validate] answers [true] exactly when the errors it leaves in
    the state are empty; what was there before plays no part. *)
Theorem validate_accepts_iff_nothing_recorded {V : Validation} (s : State) :
  (validate s).2 = true <-> errors (run s (validate s).1) = no_errors.
Proof.
  rewrite validate_errors. unfold validate, no_errors.
  destruct (validateRequired (email s)), (validateEmail (email s)),
    (validateRequired (code s)); simpl; split; intros Heq;
    try reflexivity; discriminate Heq.
Qed.

(** X19: [handleConfirm] shows the success message and navigates, to
    [/login] and nowhere else, exactly when the form is valid and the
    identity provider accepts the confirmation. *)
Theorem confirm_navigates_iff_verified {V : Validation} {I : Identity}
    (s : State) (to message : string) :
  (In (Navigate to) (handleConfirm s) <->
   (to = "/login" /\ (validate s).2 = true /\
    confirmSignUp (email s) (code s) = Return tt)) /\
  (In (ShowSuccess message) (handleConfirm s) <->
   (message = "Account verified. You can sign in now." /\
    (validate s).2 = true /\
    confirmSignUp (email s) (code s) = Return tt)).
Proof.
  rewrite handleConfirm_trace, validate_updates.
  destruct (validate s).2; destruct (confirmSignUp (email s) (code s)) as [[]|e];
    simpl; split; split;
    intuition (try discriminate; try congruence).
Qed.

(** X20: when the identity provider turns the confirmation down,
    [handleConfirm] passes that very error to [handleApiError]; that is the
    only way an error reaches it. *)
Theorem confirm_reports_refusal {V : Validation} {I : Identity}
    (s : State) (error : exn) :
  In (HandleApiError error) (handleConfirm s) <->
  ((validate s).2 = true /\ confirmSignUp (email s) (code s) = Throw error).
Proof.
  rewrite handleConfirm_trace, validate_updates.
  destruct (validate s).2; destruct (confirmSignUp (email s) (code s)) as [[]|e];
    simpl; split;
    intuition (try discriminate; try congruence).
Qed.

(** X21: when [handleConfirm] is done the form shows the errors of this
    validation; if the call was made the submit button is enabled again,
    however the call ended, and on an invalid form the loading flag is
    left as it was. *)
Theorem confirm_settles_the_form {V : Validation} {I : Identity} (s : State) :
  errors (run s (handleConfirm s)) = errors (run s (validate s).1) /\
  isLoading (run s (handleConfirm s))
  = (if (validate s).2 then false else isLoading s) /\
  ((validate s).2 = true ->
   submit_disabled (render (run s (handleConfirm s))) = false /\
   submit_label (render (run s (handleConfirm s))) = "Confirm Sign Up").
Proof.
  rewrite handleConfirm_trace, validate_updates.
  destruct (validate s).2; destruct (confirmSignUp (email s) (code s)) as [[]|e];
    simpl; repeat split; done.
Qed.

Lemma confirm_settles_the_form_witness :
  let s := {| email := "john.doe@example.com"; code := "123456";
              errors := no_errors; isLoading := false; isResending := false |} in
  submit_disabled
    (render (run s (@handleConfirm plain_validation
                      (refusing (Error "CodeMismatchException")) s))) = false /\
  submit_label
    (render (run s (@handleConfirm plain_validation
                      (refusing (Error "CodeMismatchException")) s)))
  = "Confirm Sign Up".
Proof.
  intros s.
  destruct (@confirm_settles_the_form plain_validation
              (refusing (Error "CodeMismatchException")) s) as (_ & _ & Hdone).
  apply Hdone. reflexivity.
Defined.

(** X22: the confirmation call is made with the submit button disabled
    and labelled [Verifying...], and with no error shown under either
    field: whatever precedes the call in a run of [handleConfirm] has
    set the loading flag and cleared the errors. *)
Theorem confirm_call_is_made_while_loading {V : Validation} {I : Identity}
    (s : State) (before after : list event) (username confirmationCode : string) :
  handleConfirm s
  = (before ++ CallConfirmSignUp username confirmationCode :: after)%list ->
  submit_disabled (render (run s before)) = true /\
  submit_label (render (run s before)) = "Verifying..." /\
  email_shown_error (render (run s before)) = None /\
  code_shown_error (render (run s before)) = None.
Proof.
  rewrite handleConfirm_trace, validate_updates.
  destruct (validate s).2 eqn:Hvalid.
  - rewrite (validate_true_errors s Hvalid).
    destruct (confirmSignUp (email s) (code s)) as [[]|e]; simpl; intros Hcut;
      do 8 (try peel Hcut before); done.
  - simpl. intros Hcut. do 3 (try peel Hcut before); done.
Qed.

Lemma confirm_call_is_made_while_loading_witness :
  let s := {| email := "john.doe@example.com"; code := "123456";
              errors := {| email_error := Some "Invalid email format";
                           code_error := None |};
              isLoading := false; isResending := false |} in
  let before := [PreventDefault; SetErrors no_errors; SetIsLoading true] in
  submit_disabled (render (run s before)) = true /\
  submit_label (render (run s before)) = "Verifying..." /\
  email_shown_error (render (run s before)) = None /\
  code_shown_error (render (run s before)) = None.
Proof.
  intros s before.
  apply (@confirm_call_is_made_while_loading plain_validation accepting s before
           [ShowSuccess "Account verified. You can sign in now.";
            Navigate "/login"; SetIsLoading false]
           "john.doe@example.com" "123456").
  reflexivity.
Defined.

(** The shape of every run of [handleResend]. *)
Lemma handleResend_trace {V : Validation} {I : Identity} (s : State) :
  handleResend s =
  if validateRequired (email s) && validateEmail (email s) then
    ([SetIsResending true; CallResendSignUpCode (email s)] ++
     match resendSignUpCode (email s) with
     | Return _ => [ShowSuccess "Verification code resent. Check your email."]
     | Throw error => [HandleApiError error]
     end ++ [SetIsResending false])%list
  else
    [SetErrors {| email_error :=
                    Some (if validateRequired (email s)
                          then "Invalid email format" else "Email is required");
                  code_error := None |}].
Proof.
  unfold handleResend.
  by destruct (validateRequired (email s)), (validateEmail (email s)).
Qed.

(** X23: the resend call is made with the resend button disabled and
    labelled [Resending code...]; when [handleResend] is done after a call
    the button is enabled again, however the call ended. *)
Theorem resend_call_is_made_while_resending {V : Validation} {I : Identity}
    (s : State) :
  (forall before after username,
     handleResend s = (before ++ CallResendSignUpCode username :: after)%list ->
     resend_disabled (render (run s before)) = true /\
     resend_label (render (run s before)) = "Resending code...") /\
  ((exists username, In (CallResendSignUpCode username) (handleResend s)) ->
   resend_disabled (render (run s (handleResend s))) = false /\
   resend_label (render (run s (handleResend s))) = "Resend verification code").
Proof.
  rewrite handleResend_trace.
  destruct (validateRequired (email s) && validateEmail (email s)).
  - destruct (resendSignUpCode (email s)) as [[]|e]; simpl;
      (split; [intros before after username Hcut;
               do 5 (try peel Hcut before); done | done]).
  - simpl. split.
    + intros before after username Hcut. do 2 (try peel Hcut before); done.
    + intros [username [Hcall|[]]]. discriminate Hcall.
Qed.

Lemma resend_call_is_made_while_resending_witness :
  let s := {| email := "john.doe@example.com"; code := "";
              errors := no_errors; isLoading := false; isResending := false |} in
  resend_disabled
    (render (run s (@handleResend plain_validation
                      (refusing (Error "LimitExceededException")) s))) = false /\
  resend_label
    (render (run s (@handleResend plain_validation
                      (refusing (Error "LimitExceededException")) s)))
  = "Resend verification code".
Proof.
  intros s.
  destruct (@resend_call_is_made_while_resending plain_validation
              (refusing (Error "LimitExceededException")) s) as [_ Hdone].
  apply Hdone. exists "john.doe@example.com". right. left. reflexivity.
Defined.

(** X24: a resend for an email that passes both checks leaves the errors
    on the form as they were: an error shown from an earlier validation
    stays, where [validate] would have replaced it. *)
Theorem resend_keeps_earlier_errors {V : Validation} {I : Identity} (s : State) :
  validateRequired (email s) = true ->
  validateEmail (email s) = true ->
  errors (run s (handleResend s)) = errors s.
Proof.
  intros Hrequired Hformat. rewrite handleResend_trace, Hrequired, Hformat.
  by destruct (resendSignUpCode (email s)) as [[]|e].
Qed.

Lemma resend_keeps_earlier_errors_witness :
  let stale := {| email_error := None;
                  code_error := Some "Verification code is required" |} in
  let s := {| email := "john.doe@example.com"; code := "123456";
              errors := stale; isLoading := false; isResending := false |} in
  errors (run s (@handleResend plain_validation accepting s)) = stale.
Proof.
  intros stale s.
  apply (@resend_keeps_earlier_errors plain_validation accepting s); reflexivity.
Defined.

(** X25: the two handlers keep to their own: [handleConfirm] never
    touches the resending flag nor calls the resend operation, and
    [handleResend] never touches the loading flag, never calls the
    confirmation and never navigates. *)
Theorem handlers_keep_to_their_own {V : Validation} {I : Identity} (s : State) :
  isResending (run s (handleConfirm s)) = isResending s /\
  isLoading (run s (handleResend s)) = isLoading s /\
  (forall username, ~ In (CallResendSignUpCode username) (handleConfirm s)) /\
  (forall username confirmationCode,
     ~ In (CallConfirmSignUp username confirmationCode) (handleResend s)) /\
  (forall to, ~ In (Navigate to) (handleResend s)).
Proof.
  rewrite handleConfirm_trace, validate_updates, handleResend_trace.
  destruct (validate s).2, (confirmSignUp (email s) (code s)) as [[]|e],
    (validateRequired (email s) && validateEmail (email s)),
    (resendSignUpCode (email s)) as [[]|e'];
    simpl; repeat split; try reflexivity; intros;
    intuition discriminate.
Qed.

(** ** From mounting the page to the call *)

(** The email a form starts with is the one passed in, or the empty
    string. *)
Lemma mount_email (state : option (option string)) :
  email (mount state) = default "" (state ≫= id).
Proof.
  destruct state as [[address|]|]; simpl; try reflexivity.
  by destruct (String.eqb_spec address "") as [->|].
Qed.

(** X26: a form mounted with the email passed on by the sign-up page, in
    which the user types a code and submits, and likewise a form in which
    the user types the email too: when both pass validation and the
    provider accepts, the run is exactly the validation with no errors,
    the call with that email and code under the loading flag, the success
    message, and the navigation to [/login]. *)
Theorem prefilled_form_confirms {V : Validation} {I : Identity}
    (address typed : string) (state : option (option string)) :
  validateRequired address = true ->
  validateEmail address = true ->
  validateRequired typed = true ->
  confirmSignUp address typed = Return tt ->
  let run_of_success :=
    [PreventDefault; SetErrors no_errors; SetIsLoading true;
     CallConfirmSignUp address typed;
     ShowSuccess "Account verified. You can sign in now.";
     Navigate "/login"; SetIsLoading false] in
  handleConfirm (onCodeChange typed (mount (Some (Some address))))
  = run_of_success /\
  handleConfirm (onCodeChange typed (onEmailChange address (mount state)))
  = run_of_success.
Proof.
  intros Hrequired Hformat Hcode Haccepted run_of_success.
  assert (email (onCodeChange typed (mount (Some (Some address)))) = address)
    as Hemail by apply (mount_email (Some (Some address))).
  unfold handleConfirm, validate. rewrite Hemail.
  cbn [email code onCodeChange onEmailChange].
  by rewrite Hrequired, Hformat, Hcode, Haccepted.
Qed.

Lemma prefilled_form_confirms_witness :
  @handleConfirm plain_validation accepting
    (onCodeChange "123456" (mount (Some (Some "john.doe@example.com")))) =
  [PreventDefault; SetErrors no_errors; SetIsLoading true;
   CallConfirmSignUp "john.doe@example.com" "123456";
   ShowSuccess "Account verified. You can sign in now.";
   Navigate "/login"; SetIsLoading false].
Proof.
  apply (@prefilled_form_confirms plain_validation accepting
           "john.doe@example.com" "123456" None
           eq_refl eq_refl eq_refl eq_refl).
Defined.

(** X27: a form mounted without an email starts empty; with a required
    check that turns the empty string down, submitting it at once only
    records "required" for both fields, and asking for a resend only
    records it for the email: neither calls the identity provider. *)
Theorem untouched_form_is_turned_down {V : Validation} {I : Identity}
    (state : option (option string)) :
  default "" (state ≫= id) = "" ->
  validateRequired "" = false ->
  handleConfirm (mount state) =
  [PreventDefault;
   SetErrors {| email_error := Some "Email is required";
                code_error := Some "Verification code is required" |}] /\
  handleResend (mount state) =
  [SetErrors {| email_error := Some "Email is required"; code_error := None |}].
Proof.
  intros Hempty Hrequired.
  assert (email (mount state) = "") as Hemail by by rewrite mount_email.
  unfold handleConfirm, handleResend, validate. rewrite Hemail.
  cbn [code mount]. by rewrite Hrequired.
Qed.

Lemma untouched_form_is_turned_down_witness :
  @handleConfirm plain_validation accepting (mount (Some None)) =
  [PreventDefault;
   SetErrors {| email_error := Some "Email is required";
                code_error := Some "Verification code is required" |}] /\
  @handleResend plain_validation accepting (mount (Some None)) =
  [SetErrors {| email_error := Some "Email is required"; code_error := None |}].
Proof.
  apply (@untouched_form_is_turned_down plain_validation accepting (Some None));
    reflexivity.
Defined.

(** * Further properties of the requests *)


